(** * The simulated 2-D pointing notebook (notebooks/2d_simulation.ipynb)

    The notebook authors two pieces of code: the function
    [centroid_from_motor], which maps the position of a simulated motor to
    the centroid seen on a screen, and the device class [Imager], which owns
    two [SynSignal] components fed by that function.

    Numbers are Python floats, that is IEEE 754 binary64 values: the
    defaults [640.] and [1.] and the literal [0.] are floats, and a motor
    position is multiplied by a float before anything else is done with it.
    They are embedded as Rocq's primitive floats, which are the same binary64
    values with the same multiplication and comparisons (NaN, the
    infinities and the two zeros included); general facts about them are
    obtained from their specification over [spec_float]. *)

From Stdlib Require Import ZArith Bool Floats Lia.
From stdpp Require Import base strings gmap.

Local Open Scope float_scope.

(** ** State passing

    The notebook's objects are mutable.  A method or function that works on
    an object of type [S] and returns an [A] is a state transformer; stdpp's
    monad notation [x ← m; k] sequences them. *)

Definition State (S A : Type) : Type := S → (A * S)%type.

#[global] Instance State_ret {S : Type} : MRet (State S) :=
  λ A a s, (a, s).

#[global] Instance State_bind {S : Type} : MBind (State S) :=
  λ A B k m s, k (m s).1 (m s).2.

(** Reading an attribute and updating the object in place. *)
Definition reads {S A : Type} (f : S → A) : State S A := λ s, (f s, s).

Definition modify {S : Type} (f : S → S) : State S () := λ s, ((), f s).

(** The value a computation returns from a state, and the state it leaves. *)
Definition returned {S A : Type} (m : State S A) (s : S) : A := (m s).1.

Definition final {S A : Type} (m : State S A) (s : S) : S := (m s).2.

(** A reference to an object of type [S] that lives in a store [W]: code
    holding the reference runs on that object, and what it does to the
    object is seen by every other holder. *)
Record Ref (W S : Type) : Type := { deref : W → S; assign : S → W → W }.

Arguments deref {W S} _ _.
Arguments assign {W S} _ _ _.

Definition within {W S A : Type} (r : Ref W S) (m : State S A) : State W A :=
  λ w, ((m (deref r w)).1, assign r (m (deref r w)).2 w).

(** ** The simulated motor (ophyd's [SynAxis])

    The notebook only uses a motor's [name], its [position] property, and
    the fact, stated in its text, that the motor "just goes where it is
    told". *)

Record SynAxis : Type :=
  { axis_name : string; readback : float; setpoint : float }.

Definition SynAxis_position : State SynAxis float := reads readback.

(** The position a motor reports when asked. *)
Definition position_of (motor : SynAxis) : float :=
  returned SynAxis_position motor.

Definition SynAxis_set (value : float) : State SynAxis () :=
  modify (λ motor,
    {| axis_name := axis_name motor; readback := value; setpoint := value |}).

(** ** [centroid_from_motor]
<<
    def centroid_from_motor(motor, size=640., scale=1.):
        position = motor.position
        centroid = position * scale
        if centroid < 0. or centroid > size:
            return 0.
        else:
            return centroid
>>
    The [motor] argument is the object the computation runs on. *)

Definition centroid_from_motor (size scale : float) : State SynAxis float :=
  position ← SynAxis_position;
  let centroid := position * scale in
  if (centroid <? 0) || (size <? centroid) then mret 0 else mret centroid.

Definition default_size : float := 640.

Definition default_scale : float := 1.

(** The interval test the documentation speaks of: [0 <= v <= size]. *)
Definition on_screen (v size : float) : bool := (0 <=? v) && (v <=? size).

(** ** The detector

    A [SynSignal] carries a name and the value of its last evaluation;
    triggering it evaluates the function it was built with and stores the
    result ("a Python function that is evaluated every time we trigger
    it"). *)

Record SynSignal : Type := { signal_name : string; signal_value : float }.

Definition SynSignal_put (value : float) : State SynSignal () :=
  modify (λ sig, {| signal_name := signal_name sig; signal_value := value |}).

(** [class Imager(Device)]: an instance owns its two signals. *)
Record Imager : Type :=
  { device_name : string; x_centroid : SynSignal; y_centroid : SynSignal }.

(** The notebook's global objects: the motors [x] and [y] and the [imager].
    [triggered] is a ghost record of the signals triggered so far, oldest
    first; no code reads it. *)
Record Notebook : Type :=
  { x : SynAxis; y : SynAxis; imager : Imager; triggered : list string }.

Definition x_ref : Ref Notebook SynAxis :=
  {| deref := x;
     assign m w := {| x := m; y := y w; imager := imager w;
                      triggered := triggered w |} |}.

Definition y_ref : Ref Notebook SynAxis :=
  {| deref := y;
     assign m w := {| x := x w; y := m; imager := imager w;
                      triggered := triggered w |} |}.

Definition x_centroid_ref : Ref Notebook SynSignal :=
  {| deref w := x_centroid (imager w);
     assign sig w :=
       {| x := x w; y := y w;
          imager := {| device_name := device_name (imager w);
                       x_centroid := sig;
                       y_centroid := y_centroid (imager w) |};
          triggered := triggered w |} |}.

Definition y_centroid_ref : Ref Notebook SynSignal :=
  {| deref w := y_centroid (imager w);
     assign sig w :=
       {| x := x w; y := y w;
          imager := {| device_name := device_name (imager w);
                       x_centroid := x_centroid (imager w);
                       y_centroid := sig |};
          triggered := triggered w |} |}.

(** [partial(centroid_from_motor, motor)]: the call takes the default
    [size] and [scale] and runs on the motor the reference denotes. *)
Definition partial_centroid_from_motor (motor : Ref Notebook SynAxis)
  : State Notebook float :=
  within motor (centroid_from_motor default_size default_scale).

(** A component declaration [attr = Cpt(SynSignal, func=...)]. *)
Record Cpt : Type :=
  { attr : string;
    func : State Notebook float;
    instance : Ref Notebook SynSignal }.

Definition x_centroid_cpt : Cpt :=
  {| attr := "x_centroid";
     func := partial_centroid_from_motor x_ref;
     instance := x_centroid_ref |}.

Definition y_centroid_cpt : Cpt :=
  {| attr := "y_centroid";
     func := partial_centroid_from_motor y_ref;
     instance := y_centroid_ref |}.

(** The class body of [Imager], in declaration order. *)
Definition Imager_components : list Cpt := [x_centroid_cpt; y_centroid_cpt].

Definition record_trigger (name : string) : State Notebook () :=
  modify (λ w, {| x := x w; y := y w; imager := imager w;
                  triggered := triggered w ++ [name] |}).

(** [SynSignal.trigger]: evaluate the function, store the value.  The
    status object it returns is dropped by the only caller. *)
Definition SynSignal_trigger (c : Cpt) : State Notebook () :=
  value ← func c;
  _ ← within (instance c) (SynSignal_put value);
  name ← reads (λ w, signal_name (deref (instance c) w));
  record_trigger name.

(** [Imager.hints]
<<
    @property
    def hints(self):
        return {'fields': [self.x_centroid.name, self.y_centroid.name]}
>> *)
Definition hints (self : Imager) : gmap string (list string) :=
  {[ "fields" := [signal_name (x_centroid self);
                  signal_name (y_centroid self)] ]}.

(** Moving a motor of the notebook. *)
Definition move (motor : Ref Notebook SynAxis) (value : float)
  : State Notebook () :=
  within motor (SynAxis_set value).

Section Trigger.

(** [Device.trigger] belongs to ophyd: it is a parameter, with the type of
    the status it returns. *)
Variable StatusBase : Type.
Variable Device_trigger : State Notebook StatusBase.

(** [Imager.trigger]
<<
    def trigger(self):
        self.x_centroid.trigger()
        self.y_centroid.trigger()
        return super().trigger()
>> *)
Definition trigger : State Notebook StatusBase :=
  _ ← SynSignal_trigger x_centroid_cpt;
  _ ← SynSignal_trigger y_centroid_cpt;
  Device_trigger.

End Trigger.

(** What the detector shows: the values last stored in its two signals. *)
Definition x_reading (w : Notebook) : float :=
  signal_value (x_centroid (imager w)).

Definition y_reading (w : Notebook) : float :=
  signal_value (y_centroid (imager w)).

(** The centroid a motor gives under the default arguments. *)
Definition centroid_of (motor : SynAxis) : float :=
  returned (centroid_from_motor default_size default_scale) motor.

(** The state of the notebook after its cells have created [x], [y] and
    [imager]: both motors at rest at 0. *)
Definition notebook : Notebook :=
  {| x := {| axis_name := "x"; readback := 0; setpoint := 0 |};
     y := {| axis_name := "y"; readback := 0; setpoint := 0 |};
     imager :=
       {| device_name := "imager";
          x_centroid :=
            {| signal_name := "imager_x_centroid"; signal_value := 0 |};
          y_centroid :=
            {| signal_name := "imager_y_centroid"; signal_value := 0 |} |};
     triggered := [] |}.

(** A motor reporting a given position. *)
Definition motor_at (position : float) : SynAxis :=
  {| axis_name := "x"; readback := position; setpoint := position |}.

(** ** The notebook's scans

    [RE(scan([imager], x, -100, 800, 50))] and
    [RE(grid_scan([imager], x, 200, 400, 10, y, 200, 400, 10, False))] are
    run by bluesky.  What reaches the notebook's own code at each point of
    either scan is: the motors are set to the point, the imager, being the
    one detector, is triggered, and its two signals are read.  The points
    themselves are bluesky's choice and are left as a list. *)




(** ** Facts on binary64 comparison and multiplication *)

Module Float64.

(** The order of [spec_float] is antisymmetric as a three-way comparison. *)
Lemma SFcompare_swap (a b : spec_float) :
  SFcompare b a = option_map CompOpp (SFcompare a b).
Proof.
  destruct a as [sa|sa| |sa ma ea], b as [sb|sb| |sb mb eb]; simpl;
    try reflexivity;
    try (destruct sa; reflexivity);
    try (destruct sb; reflexivity);
    try (destruct sa, sb; reflexivity).
  destruct sa, sb; simpl; try reflexivity;
    rewrite (Z.compare_antisym ea eb);
    destruct (ea ?= eb)%Z; simpl; try reflexivity;
    rewrite (Pos.compare_cont_antisym ma mb Eq); simpl;
    try rewrite CompOpp_involutive; reflexivity.
Qed.

Lemma SFcompare_refl (a : spec_float) :
  SFcompare a a = match a with S754_nan => None | _ => Some Eq end.
Proof.
  destruct a as [s|s| |s m e]; simpl; try reflexivity.
  - destruct s; reflexivity.
  - rewrite Z.compare_refl, Pos.compare_cont_refl. destruct s; reflexivity.
Qed.

(** Two floats that compare equal are the same value, or are two zeros. *)
Lemma SFcompare_Eq_inv (a b : spec_float) :
  SFcompare a b = Some Eq ->
  a = b \/ exists sa sb, a = S754_zero sa /\ b = S754_zero sb.
Proof.
  destruct a as [sa|sa| |sa ma ea], b as [sb|sb| |sb mb eb]; simpl;
    try discriminate; try (destruct sa; discriminate);
    try (destruct sb; discriminate).
  - intros _. right. eauto.
  - destruct sa, sb; intros H; try discriminate; left; reflexivity.
  - destruct sa, sb; try discriminate;
      destruct (Z.compare_spec ea eb) as [He|He|He]; try discriminate;
      intros H; injection H as H; subst eb.
    + apply (f_equal CompOpp) in H. rewrite CompOpp_involutive in H.
      simpl in H. apply Pos.compare_eq in H. subst. left; reflexivity.
    + apply Pos.compare_eq in H. subst. left; reflexivity.
Qed.

(** A zero of either sign compares like [+0]. *)
Lemma SFcompare_zero_l (s : bool) (b : spec_float) :
  SFcompare (S754_zero s) b = SFcompare (S754_zero false) b.
Proof. destruct b; reflexivity. Qed.

Lemma SFcompare_zero_r (s : bool) (a : spec_float) :
  SFcompare a (S754_zero s) = SFcompare a (S754_zero false).
Proof. destruct a; reflexivity. Qed.

(** Comparing against equal values gives equal answers. *)
Lemma SFcompare_Eq_compat_r (a b c : spec_float) :
  SFcompare a b = Some Eq -> SFcompare c a = SFcompare c b.
Proof.
  intros H. destruct (SFcompare_Eq_inv _ _ H) as [->|(sa & sb & -> & ->)].
  - reflexivity.
  - rewrite (SFcompare_zero_r sa), (SFcompare_zero_r sb). reflexivity.
Qed.

Lemma SFcompare_Eq_compat_l (a b c : spec_float) :
  SFcompare a b = Some Eq -> SFcompare a c = SFcompare b c.
Proof.
  intros H. destruct (SFcompare_Eq_inv _ _ H) as [->|(sa & sb & -> & ->)].
  - reflexivity.
  - rewrite (SFcompare_zero_l sa), (SFcompare_zero_l sb). reflexivity.
Qed.

(** *** The same facts on primitive floats *)

Lemma is_nan_spec (x : float) :
  is_nan x = true <-> Prim2SF x = S754_nan.
Proof.
  unfold is_nan. rewrite FloatAxioms.eqb_spec. unfold SFeqb.
  rewrite SFcompare_refl. destruct (Prim2SF x); simpl; split; congruence.
Qed.

Lemma is_nan_false_spec (x : float) :
  is_nan x = false <-> Prim2SF x <> S754_nan.
Proof.
  rewrite <- is_nan_spec. destruct (is_nan x); split; congruence.
Qed.

(** [a <= b] excludes [b < a]. *)
Lemma leb_ltb_false (a b : float) :
  (a <=? b) = true -> (b <? a) = false.
Proof.
  rewrite FloatAxioms.leb_spec, FloatAxioms.ltb_spec. unfold SFleb, SFltb.
  rewrite (SFcompare_swap (Prim2SF a) (Prim2SF b)).
  destruct (SFcompare (Prim2SF a) (Prim2SF b)) as [[]|]; simpl; congruence.
Qed.

(** Away from NaN the order is total. *)
Lemma ltb_false_leb (a b : float) :
  is_nan a = false -> is_nan b = false ->
  (b <? a) = false -> (a <=? b) = true.
Proof.
  rewrite !is_nan_false_spec, FloatAxioms.leb_spec, FloatAxioms.ltb_spec. unfold SFleb, SFltb.
  rewrite (SFcompare_swap (Prim2SF a) (Prim2SF b)).
  intros Ha Hb.
  destruct (Prim2SF a) as [sa|sa| |sa ma ea] eqn:Ea; try congruence;
    destruct (Prim2SF b) as [sb|sb| |sb mb eb] eqn:Eb; try congruence;
    match goal with
    | |- context [SFcompare ?u ?v] =>
        destruct (SFcompare u v) as [[]|] eqn:Ec; simpl; try congruence
    end;
    simpl in Ec; try discriminate;
    try (destruct sa; discriminate); try (destruct sb; discriminate).
Qed.

(** Only non-NaN values are related by [<=]. *)
Lemma leb_not_nan (a b : float) :
  (a <=? b) = true -> is_nan a = false /\ is_nan b = false.
Proof.
  rewrite !is_nan_false_spec, FloatAxioms.leb_spec. unfold SFleb.
  destruct (Prim2SF a), (Prim2SF b); simpl; try discriminate;
    intros _; split; discriminate.
Qed.

(** A NaN is not below, above or equal to anything. *)
Lemma nan_ltb_l (a b : float) : is_nan a = true -> (a <? b) = false.
Proof.
  rewrite is_nan_spec, FloatAxioms.ltb_spec. intros ->. reflexivity.
Qed.

Lemma nan_ltb_r (a b : float) : is_nan b = true -> (a <? b) = false.
Proof.
  rewrite is_nan_spec, FloatAxioms.ltb_spec. intros ->. unfold SFltb.
  destruct (Prim2SF a); reflexivity.
Qed.

Lemma eqb_Some_Eq (a b : float) :
  (a =? b) = true -> SFcompare (Prim2SF a) (Prim2SF b) = Some Eq.
Proof.
  rewrite FloatAxioms.eqb_spec. unfold SFeqb.
  destruct (SFcompare (Prim2SF a) (Prim2SF b)) as [[]|]; congruence.
Qed.

(** [==] is a congruence for the comparisons. *)
Lemma eqb_ltb_compat_r (a b c : float) :
  (a =? b) = true -> (c <? a) = (c <? b).
Proof.
  intros H. rewrite !FloatAxioms.ltb_spec. unfold SFltb.
  rewrite (SFcompare_Eq_compat_r _ _ (Prim2SF c) (eqb_Some_Eq _ _ H)).
  reflexivity.
Qed.

Lemma eqb_ltb_compat_l (a b c : float) :
  (a =? b) = true -> (a <? c) = (b <? c).
Proof.
  intros H. rewrite !FloatAxioms.ltb_spec. unfold SFltb.
  rewrite (SFcompare_Eq_compat_l _ _ (Prim2SF c) (eqb_Some_Eq _ _ H)).
  reflexivity.
Qed.

Lemma eqb_leb (a b : float) : (a =? b) = true -> (a <=? b) = true.
Proof.
  intros H. rewrite FloatAxioms.leb_spec. unfold SFleb.
  rewrite (eqb_Some_Eq _ _ H). reflexivity.
Qed.

(** *** Multiplying by 1.0 is exact *)

Lemma digits2_pos_xO_iter (n : nat) (m : positive) :
  Z.pos (digits2_pos (Nat.iter n xO m))
  = (Z.pos (digits2_pos m) + Z.of_nat n)%Z.
Proof.
  induction n as [|n IH].
  - cbn [Nat.iter nat_rect]. lia.
  - change (Nat.iter (S n) xO m) with (xO (Nat.iter n xO m)).
    cbn [digits2_pos]. rewrite Pos2Z.inj_succ, IH. lia.
Qed.

Lemma iter_shr_xO_iter (n : nat) (m : positive) :
  Nat.iter n shr_1 (Build_shr_record (Z.pos (Nat.iter n xO m)) false false)
  = Build_shr_record (Z.pos m) false false.
Proof.
  induction n as [|n IH]; [reflexivity|].
  rewrite Nat.iter_succ_r.
  change (Nat.iter (S n) xO m) with (xO (Nat.iter n xO m)).
  cbn [shr_1 orb]. exact IH.
Qed.

Lemma digits2_pos_shift52 (m : positive) :
  Z.pos (digits2_pos (4503599627370496 * m))
  = (Z.pos (digits2_pos m) + 52)%Z.
Proof. exact (digits2_pos_xO_iter 52 m). Qed.

Lemma iter_shr_52 (m : positive) :
  SpecFloat.iter_pos shr_1 52
    (Build_shr_record (Z.pos (4503599627370496 * m)) false false)
  = Build_shr_record (Z.pos m) false false.
Proof. exact (iter_shr_xO_iter 52 m). Qed.

(** [1.0] is the mantissa [2^52] at exponent [-52]: the product with a
    format member [m * 2^e] is [m * 2^52] at [e - 52], and rounding
    shifts the fifty-two zero bits out again. *)
Lemma SFmul_one_r (v : spec_float) :
  valid_binary v = true ->
  SF64mul v (S754_finite false 4503599627370496 (-52)) = v.
Proof.
  destruct v as [s|s| |s m e]; intros Hv.
  - destruct s; reflexivity.
  - destruct s; reflexivity.
  - reflexivity.
  - cbn [SpecFloat.valid_binary bounded] in Hv.
    apply andb_prop in Hv. destruct Hv as [Hc Hb].
    unfold canonical_mantissa in Hc. apply Z.eqb_eq in Hc.
    unfold SF64mul, SFmul. rewrite xorb_false_r, Pos.mul_comm.
    unfold binary_round_aux.
    assert (Hs : shr_fexp prec emax (Z.pos (4503599627370496 * m))
                   (e + -52) loc_Exact
                 = (Build_shr_record (Z.pos m) false false, e)).
    { unfold shr_fexp. cbn [Zdigits2]. rewrite digits2_pos_shift52.
      replace (Z.pos (digits2_pos m) + 52 + (e + -52))%Z
        with (Z.pos (digits2_pos m) + e)%Z by lia.
      rewrite Hc. replace (e - (e + -52))%Z with 52%Z by lia.
      unfold shr. cbn [shr_record_of_loc]. rewrite iter_shr_52.
      f_equal. lia. }
    rewrite Hs. cbn [shr_m loc_of_shr_record round_nearest_even].
    unfold shr_fexp. cbn [Zdigits2]. rewrite Hc, Z.sub_diag.
    cbn [shr shr_m]. rewrite Hb. reflexivity.
Qed.

Lemma mul_one_r (a : float) : a * 1 = a.
Proof.
  apply Prim2SF_inj. rewrite mul_spec.
  change (Prim2SF 1) with (S754_finite false 4503599627370496 (-52)).
  apply SFmul_one_r, Prim2SF_valid.
Qed.

(** NaN and the two zeros are three different values. *)
Lemma nan_neq_zero : nan <> 0.
Proof.
  intros H. apply (f_equal Prim2SF) in H. vm_compute in H. discriminate.
Qed.

End Float64.

(** ** What [centroid_from_motor] computes *)

(** The body, with the monad unfolded: the motor is handed back as it
    came, and the value is decided by the two strict comparisons. *)
Lemma centroid_from_motor_unfold (size scale : float) (motor : SynAxis) :
  centroid_from_motor size scale motor
  = (if (position_of motor * scale <? 0) || (size <? position_of motor * scale)
     then 0 else position_of motor * scale, motor).
Proof.
  unfold centroid_from_motor, position_of, returned, SynAxis_position, reads.
  unfold mbind, State_bind, mret, State_ret. cbn [fst snd].
  destruct ((readback motor * scale <? 0) || (size <? readback motor * scale));
    reflexivity.
Qed.

Lemma returned_clamped (size scale : float) (motor : SynAxis) :
  (position_of motor * scale <? 0) || (size <? position_of motor * scale) = true ->
  returned (centroid_from_motor size scale) motor = 0.
Proof.
  intros H. unfold returned. rewrite centroid_from_motor_unfold, H. reflexivity.
Qed.

Lemma returned_passed (size scale : float) (motor : SynAxis) :
  (position_of motor * scale <? 0) || (size <? position_of motor * scale) = false ->
  returned (centroid_from_motor size scale) motor = position_of motor * scale.
Proof.
  intros H. unfold returned. rewrite centroid_from_motor_unfold, H. reflexivity.
Qed.

(** A value on the screen passes both comparisons. *)
Lemma on_screen_guard (v size : float) :
  on_screen v size = true -> (v <? 0) || (size <? v) = false.
Proof.
  unfold on_screen. intros H. apply andb_prop in H. destruct H as [H0 Hs].
  rewrite (Float64.leb_ltb_false _ _ H0), (Float64.leb_ltb_false _ _ Hs).
  reflexivity.
Qed.

(** Away from NaN, a value off the screen fails one of them. *)
Lemma off_screen_guard (v size : float) :
  is_nan v = false -> is_nan size = false ->
  on_screen v size = false -> (v <? 0) || (size <? v) = true.
Proof.
  intros Hv Hs H. destruct (v <? 0) eqn:E0; [reflexivity|].
  destruct (size <? v) eqn:E1; [reflexivity|]. exfalso.
  unfold on_screen in H.
  rewrite (Float64.ltb_false_leb 0 v eq_refl Hv E0) in H.
  rewrite (Float64.ltb_false_leb v size Hv Hs E1) in H. discriminate.
Qed.

Lemma nan_guard (v size : float) :
  is_nan v = true -> (v <? 0) || (size <? v) = false.
Proof.
  intros H. rewrite (Float64.nan_ltb_l v 0 H), (Float64.nan_ltb_r size v H).
  reflexivity.
Qed.

(** ** The clamp *)

(** C1, as stated, fails: a motor reporting NaN gives a product that is not
    in [[0, 640]], and the function returns that NaN, not 0. *)
Lemma clamp_outside_nan_counterexample :
  on_screen (position_of (motor_at nan) * 1) 640 = false /\
  returned (centroid_from_motor 640 1) (motor_at nan) = nan /\
  returned (centroid_from_motor 640 1) (motor_at nan) <> 0.
Proof.
  split; [reflexivity|]. split; [reflexivity|].
  change (returned (centroid_from_motor 640 1) (motor_at nan)) with nan.
  exact Float64.nan_neq_zero.
Qed.

(** C1, amended: the function returns [position * scale] when
    [0 <= position * scale <= size], and 0 when [position * scale < 0] or
    [position * scale > size]; for a product and a size that are not NaN the
    latter is exactly when the product is outside [[0, size]].  A NaN
    product is returned as it is, and under a NaN size a product that is
    not negative is returned as it is. *)
Theorem centroid_from_motor_clamp (motor : SynAxis) (size scale : float) :
  let centroid := position_of motor * scale in
  let result := returned (centroid_from_motor size scale) motor in
  (on_screen centroid size = true -> result = centroid) /\
  ((centroid <? 0) || (size <? centroid) = true -> result = 0) /\
  (on_screen centroid size = false ->
   is_nan centroid = false -> is_nan size = false -> result = 0) /\
  (is_nan centroid = true -> result = centroid) /\
  (is_nan size = true -> (centroid <? 0) = false -> result = centroid).
Proof.
  intros centroid result. subst centroid result. repeat split.
  - intros H. apply returned_passed, on_screen_guard, H.
  - apply returned_clamped.
  - intros H Hc Hs. apply returned_clamped, off_screen_guard; assumption.
  - intros H. apply returned_passed, nan_guard, H.
  - intros Hs H0. apply returned_passed.
    rewrite H0, (Float64.nan_ltb_l size _ Hs). reflexivity.
Qed.

(** C2: the value returned is a function of the reported position and of
    the [size] and [scale] arguments; nothing else about the motor, and
    nothing outside it, enters. *)
Theorem centroid_from_motor_deterministic
    (motor1 motor2 : SynAxis) (size scale : float) :
  position_of motor1 = position_of motor2 ->
  returned (centroid_from_motor size scale) motor1
  = returned (centroid_from_motor size scale) motor2.
Proof.
  intros H. unfold returned. rewrite !centroid_from_motor_unfold, H.
  reflexivity.
Qed.

Lemma centroid_from_motor_deterministic_witness :
  position_of (motor_at 420)
  = position_of {| axis_name := "y"; readback := 420; setpoint := 35 |} /\
  returned (centroid_from_motor 640 1) (motor_at 420)
  = returned (centroid_from_motor 640 1)
      {| axis_name := "y"; readback := 420; setpoint := 35 |}.
Proof.
  split; [reflexivity|].
  apply (centroid_from_motor_deterministic (motor_at 420)
           {| axis_name := "y"; readback := 420; setpoint := 35 |} 640 1).
  reflexivity.
Defined.

(** C7: the motor is only read.  Whatever its state and whatever the
    arguments, the motor after the call is the motor before it: name,
    readback and setpoint alike. *)
Theorem centroid_from_motor_reads_only (motor : SynAxis) (size scale : float) :
  final (centroid_from_motor size scale) motor = motor /\
  position_of (final (centroid_from_motor size scale) motor)
  = position_of motor.
Proof.
  unfold final. rewrite centroid_from_motor_unfold. split; reflexivity.
Qed.

(** ** The ends of the interval *)

(** C3, as stated, fails for a negative [size]: with [size = -5] and a
    product of exactly [-5] the function returns 0, which is not [size]. *)
Lemma closed_interval_negative_size_counterexample :
  (position_of (motor_at (-5)) * 1 =? -5) = true /\
  returned (centroid_from_motor (-5) 1) (motor_at (-5)) = 0 /\
  (returned (centroid_from_motor (-5) 1) (motor_at (-5)) =? -5) = false.
Proof. repeat split; reflexivity. Qed.

(** C3, amended: for a [size] that is not negative the interval is closed
    at both ends: a product equal to 0 is returned itself, not the clamp,
    and a product equal to [size] is returned itself and so equals [size].
    For any [size], a product equal to 0 gives a result equal to 0. *)
Theorem centroid_from_motor_closed_interval
    (motor : SynAxis) (size scale : float) :
  let centroid := position_of motor * scale in
  let result := returned (centroid_from_motor size scale) motor in
  ((centroid =? 0) = true -> (result =? 0) = true) /\
  ((0 <=? size) = true ->
   ((centroid =? 0) = true -> result = centroid) /\
   ((centroid =? size) = true -> result = centroid /\ (result =? size) = true)).
Proof.
  intros centroid result. subst centroid result. split.
  - intros H.
    destruct ((position_of motor * scale <? 0)
              || (size <? position_of motor * scale)) eqn:G.
    + rewrite (returned_clamped _ _ _ G). reflexivity.
    + rewrite (returned_passed _ _ _ G). exact H.
  - intros Hsize.
    pose proof (Float64.leb_ltb_false _ _ Hsize) as Hneg.
    split; intros H.
    + apply returned_passed.
      rewrite (Float64.eqb_ltb_compat_l _ _ 0 H).
      rewrite (Float64.eqb_ltb_compat_r _ _ size H), Hneg. reflexivity.
    + assert (Hr : returned (centroid_from_motor size scale) motor
                   = position_of motor * scale).
      { apply returned_passed.
        rewrite (Float64.eqb_ltb_compat_l _ _ 0 H), Hneg.
        rewrite (Float64.leb_ltb_false _ _ (Float64.eqb_leb _ _ H)).
        reflexivity. }
      rewrite Hr. split; [reflexivity | exact H].
Qed.

Lemma centroid_from_motor_closed_interval_witness :
  ((0 <=? 640) = true /\ (position_of (motor_at 320) * 2 =? 640) = true) /\
  returned (centroid_from_motor 640 2) (motor_at 320)
  = position_of (motor_at 320) * 2 /\
  (returned (centroid_from_motor 640 2) (motor_at 320) =? 640) = true.
Proof.
  split; [split; reflexivity|].
  exact (proj2 (proj2 (centroid_from_motor_closed_interval
                         (motor_at 320) 640 2) eq_refl) eq_refl).
Defined.

(** ** Scale and position *)

(** C5: scaling inside the call is the same as moving the motor to the
    scaled position and calling with scale 1: the two calls return the
    same value, because multiplying a binary64 value by 1.0 is exact. *)
Theorem centroid_from_motor_scale
    (motor scaled : SynAxis) (size scale : float) :
  position_of scaled = position_of motor * scale ->
  returned (centroid_from_motor size scale) motor
  = returned (centroid_from_motor size 1) scaled.
Proof.
  intros H. unfold returned. rewrite !centroid_from_motor_unfold, H.
  rewrite Float64.mul_one_r. reflexivity.
Qed.

Lemma centroid_from_motor_scale_witness :
  position_of (motor_at 210) = position_of (motor_at 105) * 2 /\
  returned (centroid_from_motor 640 2) (motor_at 105)
  = returned (centroid_from_motor 640 1) (motor_at 210).
Proof.
  split; [reflexivity|].
  apply (centroid_from_motor_scale (motor_at 105) (motor_at 210) 640 2).
  reflexivity.
Defined.

(** ** The default arguments *)

(** C6, as stated, fails: NaN is outside [[0, 640]], and with the default
    arguments a motor reporting NaN gets NaN back, not 0. *)
Lemma defaults_nan_counterexample :
  on_screen (position_of (motor_at nan)) 640 = false /\
  returned (centroid_from_motor default_size default_scale) (motor_at nan)
  = nan /\
  returned (centroid_from_motor default_size default_scale) (motor_at nan)
  <> 0.
Proof.
  split; [reflexivity|]. split; [reflexivity|].
  change (returned (centroid_from_motor default_size default_scale)
            (motor_at nan)) with nan.
  exact Float64.nan_neq_zero.
Qed.

(** C6, amended: with [size = 640.] and [scale = 1.] the function returns
    the position itself when [0 <= position <= 640], and 0 when
    [position < 0] or [position > 640], that is for every position outside
    the range that is not NaN; a NaN position is returned as it is. *)
Theorem centroid_from_motor_defaults (motor : SynAxis) :
  let p := position_of motor in
  let result :=
    returned (centroid_from_motor default_size default_scale) motor in
  default_size = 640 /\ default_scale = 1 /\
  (on_screen p 640 = true -> result = p) /\
  ((p <? 0) || (640 <? p) = true -> result = 0) /\
  (on_screen p 640 = false -> is_nan p = false -> result = 0) /\
  (is_nan p = true -> result = p).
Proof.
  intros p result. subst p result. unfold default_size, default_scale.
  assert (Hpass : (position_of motor <? 0) || (640 <? position_of motor) = false ->
                  returned (centroid_from_motor 640 1) motor
                  = position_of motor).
  { intros G. rewrite <- (Float64.mul_one_r (position_of motor)) in G.
    rewrite (returned_passed _ _ _ G). apply Float64.mul_one_r. }
  assert (Hclamp : (position_of motor <? 0) || (640 <? position_of motor) = true ->
                   returned (centroid_from_motor 640 1) motor = 0).
  { intros G. rewrite <- (Float64.mul_one_r (position_of motor)) in G.
    exact (returned_clamped _ _ _ G). }
  repeat split.
  - intros H. apply Hpass, on_screen_guard, H.
  - exact Hclamp.
  - intros H Hp. apply Hclamp, off_screen_guard; [exact Hp | reflexivity | exact H].
  - intros H. apply Hpass, nan_guard, H.
Qed.

Lemma centroid_from_motor_defaults_witness :
  on_screen (position_of (motor_at 420)) 640 = true /\
  returned (centroid_from_motor default_size default_scale) (motor_at 420)
  = position_of (motor_at 420).
Proof.
  split; [reflexivity|].
  exact (proj1 (proj2 (proj2 (centroid_from_motor_defaults (motor_at 420))))
           eq_refl).
Defined.

(** ** The range of the reading *)

(** C8, as stated, fails: for [size = 640 >= 0] a motor reporting NaN
    makes the function return NaN, which is not in [[0, 640]]. *)
Lemma range_nan_counterexample :
  (0 <=? 640) = true /\
  returned (centroid_from_motor 640 1) (motor_at nan) = nan /\
  on_screen (returned (centroid_from_motor 640 1) (motor_at nan)) 640 = false.
Proof. repeat split; reflexivity. Qed.

(** C8, amended: for every [size >= 0] and every position and scale whose
    product is not NaN, the value returned lies in [[0, size]].  Whatever
    the product, the value returned is never below 0 and never above
    [size]. *)
Theorem centroid_from_motor_range (motor : SynAxis) (size scale : float) :
  (0 <=? size) = true ->
  let result := returned (centroid_from_motor size scale) motor in
  (is_nan (position_of motor * scale) = false -> on_screen result size = true)
  /\ (result <? 0) = false /\ (size <? result) = false.
Proof.
  intros Hsize result. subst result.
  pose proof (Float64.leb_ltb_false _ _ Hsize) as Hneg.
  destruct (Float64.leb_not_nan _ _ Hsize) as [_ Hs].
  destruct ((position_of motor * scale <? 0)
            || (size <? position_of motor * scale)) eqn:G.
  - rewrite (returned_clamped _ _ _ G). repeat split.
    + intros _. unfold on_screen. rewrite Hsize. reflexivity.
    + exact Hneg.
  - rewrite (returned_passed _ _ _ G).
    apply orb_false_elim in G. destruct G as [G0 G1]. repeat split.
    + intros Hc. unfold on_screen.
      rewrite (Float64.ltb_false_leb 0 _ eq_refl Hc G0).
      rewrite (Float64.ltb_false_leb _ size Hc Hs G1). reflexivity.
    + exact G0.
    + exact G1.
Qed.

Lemma centroid_from_motor_range_witness :
  ((0 <=? 640) = true /\ is_nan (position_of (motor_at 800) * 1) = false) /\
  on_screen (returned (centroid_from_motor 640 1) (motor_at 800)) 640 = true.
Proof.
  split; [split; reflexivity|].
  exact (proj1 (centroid_from_motor_range (motor_at 800) 640 1 eq_refl)
           eq_refl).
Defined.

(** ** The detector *)

(** The function of a component returns the centroid of its motor and
    changes nothing in the notebook. *)
Lemma partial_x_unfold (w : Notebook) :
  partial_centroid_from_motor x_ref w = (centroid_of (x w), w).
Proof.
  unfold partial_centroid_from_motor, within, centroid_of, returned.
  cbn [deref assign x_ref]. rewrite centroid_from_motor_unfold.
  cbn [fst snd]. destruct w; reflexivity.
Qed.

Lemma partial_y_unfold (w : Notebook) :
  partial_centroid_from_motor y_ref w = (centroid_of (y w), w).
Proof.
  unfold partial_centroid_from_motor, within, centroid_of, returned.
  cbn [deref assign y_ref]. rewrite centroid_from_motor_unfold.
  cbn [fst snd]. destruct w; reflexivity.
Qed.

(** Triggering a signal stores the centroid of its motor in it and leaves
    the motors and the other signal alone. *)
Lemma SynSignal_trigger_x (w : Notebook) :
  final (SynSignal_trigger x_centroid_cpt) w
  = {| x := x w; y := y w;
       imager :=
         {| device_name := device_name (imager w);
            x_centroid :=
              {| signal_name := signal_name (x_centroid (imager w));
                 signal_value := centroid_of (x w) |};
            y_centroid := y_centroid (imager w) |};
       triggered := triggered w ++ [signal_name (x_centroid (imager w))] |}.
Proof.
  unfold final, SynSignal_trigger, mbind, State_bind.
  cbn [func x_centroid_cpt]. rewrite partial_x_unfold. reflexivity.
Qed.

Lemma SynSignal_trigger_y (w : Notebook) :
  final (SynSignal_trigger y_centroid_cpt) w
  = {| x := x w; y := y w;
       imager :=
         {| device_name := device_name (imager w);
            x_centroid := x_centroid (imager w);
            y_centroid :=
              {| signal_name := signal_name (y_centroid (imager w));
                 signal_value := centroid_of (y w) |} |};
       triggered := triggered w ++ [signal_name (y_centroid (imager w))] |}.
Proof.
  unfold final, SynSignal_trigger, mbind, State_bind.
  cbn [func y_centroid_cpt]. rewrite partial_y_unfold. reflexivity.
Qed.

(** [Imager.trigger] runs the base trigger from the state in which both
    signals have been triggered. *)
Lemma trigger_unfold {StatusBase : Type}
    (Device_trigger : State Notebook StatusBase) (w : Notebook) :
  trigger StatusBase Device_trigger w
  = Device_trigger
      (final (SynSignal_trigger y_centroid_cpt)
         (final (SynSignal_trigger x_centroid_cpt) w)).
Proof. reflexivity. Qed.

(** C4: the class body of [Imager] holds exactly two components,
    [x_centroid] then [y_centroid]; the function of the first returns the
    centroid of motor [x] and that of the second the centroid of motor [y].
    A call to [Imager.trigger] triggers [x_centroid], then [y_centroid]
    (each stores its motor's centroid, and the ghost record grows by the two
    names in that order), and what it returns, with the state it leaves, is
    what the base [Device.trigger] gives from there. *)
Theorem Imager_trigger_spec (StatusBase : Type)
    (Device_trigger : State Notebook StatusBase) (w : Notebook) :
  attr <$> Imager_components = ["x_centroid"; "y_centroid"] /\
  func x_centroid_cpt w = (centroid_of (x w), w) /\
  func y_centroid_cpt w = (centroid_of (y w), w) /\
  let w1 := final (SynSignal_trigger x_centroid_cpt) w in
  let w2 := final (SynSignal_trigger y_centroid_cpt) w1 in
  (x_reading w1 = centroid_of (x w) /\ y_reading w1 = y_reading w /\
   triggered w1 = triggered w ++ [signal_name (x_centroid (imager w))]) /\
  (x_reading w2 = centroid_of (x w) /\ y_reading w2 = centroid_of (y w) /\
   triggered w2 = triggered w ++ [signal_name (x_centroid (imager w));
                                  signal_name (y_centroid (imager w))]) /\
  (x w2 = x w /\ y w2 = y w) /\
  trigger StatusBase Device_trigger w = Device_trigger w2.
Proof.
  split; [reflexivity|].
  split; [apply partial_x_unfold|].
  split; [apply partial_y_unfold|].
  cbv zeta. rewrite trigger_unfold, SynSignal_trigger_y, SynSignal_trigger_x.
  unfold x_reading, y_reading. cbn [x y imager triggered x_centroid y_centroid
    signal_name signal_value device_name].
  rewrite <- app_assoc. repeat split; reflexivity.
Qed.

(** C10: [hints] is a dictionary with the one key ['fields'], bound to the
    list of the name of [x_centroid] followed by the name of [y_centroid]. *)
Theorem hints_fields (self : Imager) :
  hints self !! "fields"
  = Some [signal_name (x_centroid self); signal_name (y_centroid self)] /\
  dom (hints self) = {["fields"]} /\
  size (hints self) = 1%nat /\
  (forall key : string, key <> "fields" -> hints self !! key = None).
Proof.
  unfold hints. split; [|split; [|split]].
  - apply lookup_singleton_eq.
  - apply dom_singleton_L.
  - apply map_size_singleton.
  - intros key Hkey. apply lookup_singleton_ne. congruence.
Qed.

(** ** The two axes are independent *)

Section Axes.

Variable StatusBase : Type.
Variable Device_trigger : State Notebook StatusBase.

(** The base trigger takes no part in the simulation: it moves no motor
    and writes no signal of the imager. *)
Hypothesis Device_trigger_frame :
  forall w : Notebook,
    x (final Device_trigger w) = x w /\
    y (final Device_trigger w) = y w /\
    imager (final Device_trigger w) = imager w.

Lemma trigger_final (w : Notebook) :
  x (final (trigger StatusBase Device_trigger) w) = x w /\
  y (final (trigger StatusBase Device_trigger) w) = y w /\
  x_reading (final (trigger StatusBase Device_trigger) w) = centroid_of (x w) /\
  y_reading (final (trigger StatusBase Device_trigger) w) = centroid_of (y w).
Proof.
  assert (E : final (trigger StatusBase Device_trigger) w
              = final Device_trigger
                  (final (SynSignal_trigger y_centroid_cpt)
                     (final (SynSignal_trigger x_centroid_cpt) w)))
    by reflexivity.
  destruct (Device_trigger_frame
              (final (SynSignal_trigger y_centroid_cpt)
                 (final (SynSignal_trigger x_centroid_cpt) w)))
    as (Hx & Hy & Hi).
  rewrite E. unfold x_reading, y_reading.
  rewrite Hx, Hy, Hi, SynSignal_trigger_y, SynSignal_trigger_x.
  repeat split; reflexivity.
Qed.

Lemma centroid_of_position (motor1 motor2 : SynAxis) :
  position_of motor1 = position_of motor2 ->
  centroid_of motor1 = centroid_of motor2.
Proof.
  intros H. unfold centroid_of, returned.
  rewrite !centroid_from_motor_unfold, H. reflexivity.
Qed.

(** C9: after a trigger the [x_centroid] reading is the centroid of the
    position of motor [x], so two notebooks whose [x] motors report the same
    position show the same [x_centroid] whatever the rest of their state;
    moving [y] between two triggers leaves the [x_centroid] reading as it
    was.  The same holds with [x] and [y] exchanged. *)
Theorem axes_do_not_interfere :
  (forall w1 w2 : Notebook,
     position_of (x w1) = position_of (x w2) ->
     x_reading (final (trigger StatusBase Device_trigger) w1)
     = x_reading (final (trigger StatusBase Device_trigger) w2)) /\
  (forall w1 w2 : Notebook,
     position_of (y w1) = position_of (y w2) ->
     y_reading (final (trigger StatusBase Device_trigger) w1)
     = y_reading (final (trigger StatusBase Device_trigger) w2)) /\
  (forall (w : Notebook) (value : float),
     x_reading
       (final (_ ← trigger StatusBase Device_trigger;
               _ ← move y_ref value;
               trigger StatusBase Device_trigger) w)
     = x_reading (final (trigger StatusBase Device_trigger) w)) /\
  (forall (w : Notebook) (value : float),
     y_reading
       (final (_ ← trigger StatusBase Device_trigger;
               _ ← move x_ref value;
               trigger StatusBase Device_trigger) w)
     = y_reading (final (trigger StatusBase Device_trigger) w)).
Proof.
  repeat split.
  - intros w1 w2 H.
    destruct (trigger_final w1) as (_ & _ & -> & _).
    destruct (trigger_final w2) as (_ & _ & -> & _).
    apply centroid_of_position, H.
  - intros w1 w2 H.
    destruct (trigger_final w1) as (_ & _ & _ & ->).
    destruct (trigger_final w2) as (_ & _ & _ & ->).
    apply centroid_of_position, H.
  - intros w value.
    change (final (_ ← trigger StatusBase Device_trigger;
                   _ ← move y_ref value;
                   trigger StatusBase Device_trigger) w)
      with (final (trigger StatusBase Device_trigger)
              (final (move y_ref value)
                 (final (trigger StatusBase Device_trigger) w))).
    destruct (trigger_final w) as (Hx & _ & -> & _).
    destruct (trigger_final
                (final (move y_ref value)
                   (final (trigger StatusBase Device_trigger) w)))
      as (_ & _ & -> & _).
    apply centroid_of_position. f_equal. rewrite <- Hx. reflexivity.
  - intros w value.
    change (final (_ ← trigger StatusBase Device_trigger;
                   _ ← move x_ref value;
                   trigger StatusBase Device_trigger) w)
      with (final (trigger StatusBase Device_trigger)
              (final (move x_ref value)
                 (final (trigger StatusBase Device_trigger) w))).
    destruct (trigger_final w) as (_ & Hy & _ & ->).
    destruct (trigger_final
                (final (move x_ref value)
                   (final (trigger StatusBase Device_trigger) w)))
      as (_ & _ & _ & ->).
    apply centroid_of_position. f_equal. rewrite <- Hy. reflexivity.
Qed.

End Axes.

Lemma axes_do_not_interfere_witness :
  (forall w : Notebook,
     x (final (record_trigger "imager") w) = x w /\
     y (final (record_trigger "imager") w) = y w /\
     imager (final (record_trigger "imager") w) = imager w) /\
  x_reading
    (final (_ ← trigger () (record_trigger "imager");
            _ ← move y_ref 300;
            trigger () (record_trigger "imager"))
       (final (move x_ref 420) notebook))
  = x_reading
      (final (trigger () (record_trigger "imager"))
         (final (move x_ref 420) notebook)).
Proof.
  assert (F : forall w : Notebook,
            x (final (record_trigger "imager") w) = x w /\
            y (final (record_trigger "imager") w) = y w /\
            imager (final (record_trigger "imager") w) = imager w)
    by (intros w; repeat split; reflexivity).
  split; [exact F|].
  exact (proj1 (proj2 (proj2
    (axes_do_not_interfere () (record_trigger "imager") F)))
    (final (move x_ref 420) notebook) 300).
Defined.

(** ** The notebook's own runs *)

(** [scan([imager], x, -100, 800, 50)] starts off the screen, crosses it
    and leaves it: positions below 0 and above 640 read 0, the others read
    themselves, both ends included. *)
Example scan_readings :
  centroid_of <$> (motor_at <$> [-100; -0.5; 0; 8.5; 420; 640; 640.5; 800])
  = [0; 0; 0; 8.5; 420; 640; 0; 0].
Proof. reflexivity. Qed.

(** One trigger with [x] at 420 and [y] at 700: [x_centroid] shows 420,
    [y_centroid] shows 0, and the signals were triggered in that order. *)
Example trigger_once :
  let w := final (_ ← move x_ref 420; _ ← move y_ref 700;
                  trigger () (mret ())) notebook in
  x_reading w = 420 /\ y_reading w = 0 /\
  triggered w = ["imager_x_centroid"; "imager_y_centroid"] /\
  hints (imager w) !! "fields"
  = Some ["imager_x_centroid"; "imager_y_centroid"].
Proof. repeat split; reflexivity. Qed.

(** ** Further facts on binary64 values *)

Module Float64Edge.

(** A float equal to 0 is one of the two zeros. *)
Lemma eqb_zero_inv (a : float) :
  (a =? 0) = true -> exists s : bool, Prim2SF a = S754_zero s.
Proof.
  intros H. apply Float64.eqb_Some_Eq in H.
  change (Prim2SF 0) with (S754_zero false) in H.
  destruct (Float64.SFcompare_Eq_inv _ _ H) as [E|(sa & sb & E & _)]; eauto.
Qed.

Lemma zero_eqb (a : float) (s : bool) :
  Prim2SF a = S754_zero s -> (a =? 0) = true.
Proof.
  intros E. rewrite FloatAxioms.eqb_spec, E. reflexivity.
Qed.

(** A product with a zero is a zero, or NaN when the other factor is NaN or
    infinite. *)
Lemma mul_zero_r_cases (a b : float) :
  (b =? 0) = true ->
  match Prim2SF a with
  | S754_nan | S754_infinity _ => is_nan (a * b) = true
  | _ => (a * b =? 0) = true
  end.
Proof.
  intros H. destruct (eqb_zero_inv b H) as [s Eb].
  pose proof (mul_spec a b) as M. rewrite Eb in M. unfold SF64mul in M.
  destruct (Prim2SF a) as [sa|sa| |sa ma ea]; cbn [SFmul] in M.
  - exact (zero_eqb _ _ M).
  - apply Float64.is_nan_spec, M.
  - apply Float64.is_nan_spec, M.
  - exact (zero_eqb _ _ M).
Qed.

(** [is_finite] picks the zeros and the finite non-zero values. *)
Lemma is_finite_spec (a : float) :
  is_finite a = true <->
  match Prim2SF a with
  | S754_nan | S754_infinity _ => False
  | _ => True
  end.
Proof.
  unfold is_finite, is_infinity, is_nan.
  rewrite !FloatAxioms.eqb_spec, abs_spec.
  change (Prim2SF infinity) with (S754_infinity false).
  unfold SFeqb. rewrite Float64.SFcompare_refl.
  destruct (Prim2SF a) as [s|s| |s m e]; cbn; split; intros H;
    try exact I; try reflexivity; try discriminate; try contradiction.
Qed.

(** Below a negative value lies every value that is not below 0. *)
Lemma ltb_neg_nonneg (a c : float) :
  (a <? 0) = true -> is_nan c = false -> (c <? 0) = false ->
  (a <? c) = true.
Proof.
  rewrite Float64.is_nan_false_spec, !FloatAxioms.ltb_spec.
  change (Prim2SF 0) with (S754_zero false). unfold SFltb.
  destruct (Prim2SF a) as [sa|sa| |sa ma ea];
    destruct (Prim2SF c) as [sc|sc| |sc mc ec]; cbn;
    try discriminate; try congruence;
    try (destruct sa; cbn; try discriminate);
    try (destruct sc; cbn; try discriminate); try reflexivity; congruence.
Qed.

(** A value that is at least 0 and not equal to 0 is above 0. *)
Lemma ltb_zero_of_neq (c : float) :
  is_nan c = false -> (c <? 0) = false -> (c =? 0) = false ->
  (0 <? c) = true.
Proof.
  rewrite Float64.is_nan_false_spec, !FloatAxioms.ltb_spec,
    FloatAxioms.eqb_spec.
  change (Prim2SF 0) with (S754_zero false). unfold SFltb, SFeqb.
  destruct (Prim2SF c) as [sc|sc| |sc mc ec]; cbn;
    try discriminate; try congruence;
    try (destruct sc; cbn; try discriminate); try reflexivity; congruence.
Qed.

End Float64Edge.

(** ** More on [centroid_from_motor] *)

(** X1: the clamp is idempotent.  A motor that reports a value returned by
    [centroid_from_motor] gets, for the same [size] and scale 1, that value
    back: a reading fed through the function again is not clamped a second
    time and not altered, NaN and the zeros included. *)
Theorem centroid_from_motor_idempotent
    (motor again : SynAxis) (size scale : float) :
  position_of again = returned (centroid_from_motor size scale) motor ->
  returned (centroid_from_motor size 1) again
  = returned (centroid_from_motor size scale) motor.
Proof.
  intros H.
  destruct ((position_of motor * scale <? 0)
            || (size <? position_of motor * scale)) eqn:G.
  - rewrite (returned_clamped _ _ _ G) in *.
    destruct ((position_of again * 1 <? 0)
              || (size <? position_of again * 1)) eqn:G'.
    + apply returned_clamped, G'.
    + rewrite (returned_passed _ _ _ G'), Float64.mul_one_r. exact H.
  - rewrite (returned_passed _ _ _ G) in *.
    rewrite <- H in G. rewrite <- (Float64.mul_one_r (position_of again)) in G.
    rewrite (returned_passed _ _ _ G), Float64.mul_one_r. exact H.
Qed.

Lemma centroid_from_motor_idempotent_witness :
  position_of (motor_at 0)
  = returned (centroid_from_motor 640 2) (motor_at 400) /\
  returned (centroid_from_motor 640 1) (motor_at 0)
  = returned (centroid_from_motor 640 2) (motor_at 400).
Proof.
  split; [reflexivity|].
  apply (centroid_from_motor_idempotent (motor_at 400) (motor_at 0) 640 2).
  reflexivity.
Defined.

(** X2: a reading that is a number other than 0 is a genuine one.  It is
    the product [position * scale] itself, the product is above 0 and not
    above [size], and so, for a [size] that is not NaN, on the screen. *)
Theorem centroid_from_motor_nonzero
    (motor : SynAxis) (size scale : float) :
  let centroid := position_of motor * scale in
  let result := returned (centroid_from_motor size scale) motor in
  (result =? 0) = false -> is_nan result = false ->
  result = centroid /\ (0 <? centroid) = true /\ (size <? centroid) = false /\
  (is_nan size = false -> on_screen centroid size = true).
Proof.
  intros centroid result. subst centroid result.
  destruct ((position_of motor * scale <? 0)
            || (size <? position_of motor * scale)) eqn:G.
  - rewrite (returned_clamped _ _ _ G). intros H. discriminate H.
  - rewrite (returned_passed _ _ _ G). intros Hz Hn.
    apply orb_false_elim in G. destruct G as [G0 G1].
    split; [reflexivity|].
    split; [apply Float64Edge.ltb_zero_of_neq; assumption|].
    split; [exact G1|].
    intros Hs. unfold on_screen.
    rewrite (Float64.ltb_false_leb 0 _ eq_refl Hn G0).
    rewrite (Float64.ltb_false_leb _ size Hn Hs G1). reflexivity.
Qed.

Lemma centroid_from_motor_nonzero_witness :
  ((returned (centroid_from_motor 640 2) (motor_at 105) =? 0) = false /\
   is_nan (returned (centroid_from_motor 640 2) (motor_at 105)) = false) /\
  returned (centroid_from_motor 640 2) (motor_at 105)
  = position_of (motor_at 105) * 2 /\
  (0 <? position_of (motor_at 105) * 2) = true /\
  (640 <? position_of (motor_at 105) * 2) = false /\
  (is_nan 640 = false -> on_screen (position_of (motor_at 105) * 2) 640 = true).
Proof.
  split; [split; reflexivity|].
  exact (centroid_from_motor_nonzero (motor_at 105) 640 2 eq_refl eq_refl).
Defined.

(** X3: a negative [size] leaves no screen.  Every product that is not NaN
    is then below 0 or above [size], and the function returns 0; a NaN
    product is returned as NaN. *)
Theorem centroid_from_motor_negative_size
    (motor : SynAxis) (size scale : float) :
  (size <? 0) = true ->
  let centroid := position_of motor * scale in
  let result := returned (centroid_from_motor size scale) motor in
  (is_nan centroid = false -> result = 0) /\
  (is_nan centroid = true -> is_nan result = true).
Proof.
  intros Hsize centroid result. subst centroid result. split.
  - intros Hc. apply returned_clamped.
    destruct (position_of motor * scale <? 0) eqn:G0; [reflexivity|].
    rewrite (Float64Edge.ltb_neg_nonneg size _ Hsize Hc G0). reflexivity.
  - intros Hc. rewrite (returned_passed _ _ _ (nan_guard _ size Hc)).
    exact Hc.
Qed.

Lemma centroid_from_motor_negative_size_witness :
  ((-1 <? 0) = true /\ is_nan (position_of (motor_at 420) * 1) = false) /\
  returned (centroid_from_motor (-1) 1) (motor_at 420) = 0.
Proof.
  split; [split; reflexivity|].
  exact (proj1 (centroid_from_motor_negative_size (motor_at 420) (-1) 1
                  eq_refl) eq_refl).
Defined.

(** X4: a scale of zero, of either sign, flattens the reading.  A finite
    position then reads 0, whatever the [size]; a position that is infinite
    or NaN gives a NaN product, and NaN is returned. *)
Theorem centroid_from_motor_zero_scale
    (motor : SynAxis) (size scale : float) :
  (scale =? 0) = true ->
  let result := returned (centroid_from_motor size scale) motor in
  (is_finite (position_of motor) = true -> (result =? 0) = true) /\
  (is_finite (position_of motor) = false -> is_nan result = true).
Proof.
  intros Hscale result. subst result.
  pose proof (Float64Edge.mul_zero_r_cases (position_of motor) scale Hscale)
    as M.
  pose proof (Float64Edge.is_finite_spec (position_of motor)) as F.
  split; intros Hf.
  - assert (Hz : (position_of motor * scale =? 0) = true).
    { apply F in Hf.
      destruct (Prim2SF (position_of motor)); try contradiction; exact M. }
    destruct ((position_of motor * scale <? 0)
              || (size <? position_of motor * scale)) eqn:G.
    + rewrite (returned_clamped _ _ _ G). reflexivity.
    + rewrite (returned_passed _ _ _ G). exact Hz.
  - assert (Hn : is_nan (position_of motor * scale) = true).
    { destruct (Prim2SF (position_of motor)); try exact M;
        (assert (is_finite (position_of motor) = true)
           by (apply F; exact I)); congruence. }
    rewrite (returned_passed _ _ _ (nan_guard _ size Hn)). exact Hn.
Qed.

Lemma centroid_from_motor_zero_scale_witness :
  ((-0 =? 0) = true /\ is_finite (position_of (motor_at 420)) = true) /\
  (returned (centroid_from_motor 640 (-0)) (motor_at 420) =? 0) = true.
Proof.
  split; [split; reflexivity|].
  exact (proj1 (centroid_from_motor_zero_scale (motor_at 420) 640 (-0)
                  eq_refl) eq_refl).
Defined.

(** ** More on the detector *)



(** A move changes the one motor and nothing else. *)
Lemma move_x_final (w : Notebook) (value : float) :
  position_of (x (final (move x_ref value) w)) = value /\
  y (final (move x_ref value) w) = y w /\
  imager (final (move x_ref value) w) = imager w.
Proof. repeat split; reflexivity. Qed.

Lemma move_y_final (w : Notebook) (value : float) :
  x (final (move y_ref value) w) = x w /\
  position_of (y (final (move y_ref value) w)) = value /\
  imager (final (move y_ref value) w) = imager w.
Proof. repeat split; reflexivity. Qed.

(** The ghost record apart, [record_trigger] changes nothing. *)
Lemma record_trigger_frame (name : string) (w : Notebook) :
  x (final (record_trigger name) w) = x w /\
  y (final (record_trigger name) w) = y w /\
  imager (final (record_trigger name) w) = imager w.
Proof. repeat split; reflexivity. Qed.

Section Detector.

Variable StatusBase : Type.
Variable Device_trigger : State Notebook StatusBase.

(** As before: the base trigger moves no motor and writes no signal. *)
Hypothesis Device_trigger_frame :
  forall w : Notebook,
    x (final Device_trigger w) = x w /\
    y (final Device_trigger w) = y w /\
    imager (final Device_trigger w) = imager w.

(** The imager after a trigger: same names, fresh values. *)
Lemma trigger_imager (w : Notebook) :
  imager (final (trigger StatusBase Device_trigger) w)
  = {| device_name := device_name (imager w);
       x_centroid := {| signal_name := signal_name (x_centroid (imager w));
                        signal_value := centroid_of (x w) |};
       y_centroid := {| signal_name := signal_name (y_centroid (imager w));
                        signal_value := centroid_of (y w) |} |}.
Proof.
  assert (E : final (trigger StatusBase Device_trigger) w
              = final Device_trigger
                  (final (SynSignal_trigger y_centroid_cpt)
                     (final (SynSignal_trigger x_centroid_cpt) w)))
    by reflexivity.
  destruct (Device_trigger_frame
              (final (SynSignal_trigger y_centroid_cpt)
                 (final (SynSignal_trigger x_centroid_cpt) w)))
    as (_ & _ & Hi).
  rewrite E, Hi, SynSignal_trigger_y, SynSignal_trigger_x. reflexivity.
Qed.

(** X5: triggering twice in a row is triggering once.  With no move in
    between, the second trigger leaves the imager (names and stored
    values) and both motors exactly as the first left them. *)
Theorem trigger_twice (w : Notebook) :
  imager (final (_ ← trigger StatusBase Device_trigger;
                 trigger StatusBase Device_trigger) w)
  = imager (final (trigger StatusBase Device_trigger) w) /\
  x (final (_ ← trigger StatusBase Device_trigger;
            trigger StatusBase Device_trigger) w) = x w /\
  y (final (_ ← trigger StatusBase Device_trigger;
            trigger StatusBase Device_trigger) w) = y w.
Proof.
  change (final (_ ← trigger StatusBase Device_trigger;
                 trigger StatusBase Device_trigger) w)
    with (final (trigger StatusBase Device_trigger)
            (final (trigger StatusBase Device_trigger) w)).
  destruct (trigger_final StatusBase Device_trigger Device_trigger_frame w)
    as (Hx & Hy & _ & _).
  destruct (trigger_final StatusBase Device_trigger Device_trigger_frame
              (final (trigger StatusBase Device_trigger) w))
    as (Hx' & Hy' & _ & _).
  rewrite Hx', Hy', Hx, Hy.
  rewrite (trigger_imager (final (trigger StatusBase Device_trigger) w)).
  rewrite Hx, Hy, (trigger_imager w). repeat split; reflexivity.
Qed.


(** X7: [hints] is stable.  Triggering the imager and moving either motor
    leave the dictionary returned by [hints] as it was. *)
Theorem hints_stable (w : Notebook) (value : float) :
  hints (imager (final (trigger StatusBase Device_trigger) w))
  = hints (imager w) /\
  hints (imager (final (move x_ref value) w)) = hints (imager w) /\
  hints (imager (final (move y_ref value) w)) = hints (imager w).
Proof.
  rewrite trigger_imager. repeat split; reflexivity.
Qed.

End Detector.

(** ** The scans *)

Section Scans.

Variable StatusBase : Type.
Variable Device_trigger : State Notebook StatusBase.

Hypothesis Device_trigger_frame :
  forall w : Notebook,
    x (final Device_trigger w) = x w /\
    y (final Device_trigger w) = y w /\
    imager (final Device_trigger w) = imager w.





End Scans.

(** The theorems above at a base trigger that only leaves a trace. *)

Lemma trigger_twice_witness :
  (forall w : Notebook,
     x (final (record_trigger "imager") w) = x w /\
     y (final (record_trigger "imager") w) = y w /\
     imager (final (record_trigger "imager") w) = imager w) /\
  imager (final (_ ← trigger () (record_trigger "imager");
                 trigger () (record_trigger "imager"))
            (final (move x_ref 420) notebook))
  = imager (final (trigger () (record_trigger "imager"))
              (final (move x_ref 420) notebook)).
Proof.
  split; [exact (record_trigger_frame "imager")|].
  exact (proj1 (trigger_twice () (record_trigger "imager")
                  (record_trigger_frame "imager")
                  (final (move x_ref 420) notebook))).
Defined.


Lemma hints_stable_witness :
  (forall w : Notebook,
     x (final (record_trigger "imager") w) = x w /\
     y (final (record_trigger "imager") w) = y w /\
     imager (final (record_trigger "imager") w) = imager w) /\
  hints (imager (final (trigger () (record_trigger "imager")) notebook))
  = hints (imager notebook).
Proof.
  split; [exact (record_trigger_frame "imager")|].
  exact (proj1 (hints_stable () (record_trigger "imager")
                  (record_trigger_frame "imager") notebook 0)).
Defined.


